(** * app.py: the annotation query routes, embedded and verified

    The Flask application of [app.py] answers questions about which studies
    carry which annotations by sending SQL text to a PostgreSQL server.  This
    file embeds the view functions of [create_app] together with the meaning
    of the SQL statements they send, and proves the properties the
    specification states about them.

    Conventions of the embedding:
    - a Python [str] is a [string]; one [ascii] stands for one character;
    - a table is the list of its rows in the order the server produces them
      (SQL leaves that order open; every theorem quantifies over all lists);
    - [study_id] is a non-null integer key, a stored coordinate is an integer
      triple, as in the data model of the specification;
    - a view function is a computation in a state-and-exception monad over
      the process state ([_engine], the environment, the server);
    - [SET search_path TO ns, public], which some routes send first, changes
      nothing they read, every table being named with its schema, and is
      left out; so are [show_img] and [test_db], which answer no query. *)

From stdpp Require Import base option list strings gmap sets.
From Stdlib Require Import ZArith Ascii Lia.

Local Open Scope string_scope.
Local Open Scope list_scope.
Local Open Scope Z_scope.

(** ** Python strings *)

Module Py.

(** [s.replace(old, new)] for one-character [old] and [new]. *)
Fixpoint replace (old new : ascii) (s : string) : string :=
  match s with
  | EmptyString => EmptyString
  | String c s' =>
      String (if Ascii.eqb c old then new else c) (replace old new s')
  end.

(** [s.split(sep)] for a one-character separator: never an empty list. *)
Fixpoint split (sep : ascii) (s : string) : list string :=
  match s with
  | EmptyString => [EmptyString]
  | String c s' =>
      if Ascii.eqb c sep then EmptyString :: split sep s'
      else match split sep s' with
           | [] => [String c EmptyString]
           | piece :: pieces => String c piece :: pieces
           end
  end.

(** [s.startswith(prefix)]. *)
Fixpoint startswith (s prefix : string) {struct prefix} : bool :=
  match prefix, s with
  | EmptyString, _ => true
  | String p prefix', String c s' => Ascii.eqb p c && startswith s' prefix'
  | String _ _, EmptyString => false
  end.

(** [needle in s]: Python's substring test. *)
Fixpoint contains (s needle : string) : bool :=
  startswith s needle ||
  match s with
  | EmptyString => false
  | String _ s' => contains s' needle
  end.

(** The characters [c] with [c.isspace()] among the first 256 code points. *)
Definition isspace (c : ascii) : bool :=
  let n := nat_of_ascii c in
  ((9 <=? n) && (n <=? 13) || (28 <=? n) && (n <=? 32) ||
   (n =? 133) || (n =? 160))%nat.

Definition isdecimal (c : ascii) : bool :=
  let n := nat_of_ascii c in ((48 <=? n) && (n <=? 57))%nat.

Definition digit_value (c : ascii) : Z := Z.of_nat (nat_of_ascii c) - 48.

Fixpoint lstrip (s : string) : string :=
  match s with
  | EmptyString => EmptyString
  | String c s' => if isspace c then lstrip s' else s
  end.

Fixpoint rstrip (s : string) : string :=
  match s with
  | EmptyString => EmptyString
  | String c s' =>
      match rstrip s' with
      | EmptyString => if isspace c then EmptyString else String c EmptyString
      | kept => String c kept
      end
  end.

Definition strip (s : string) : string := lstrip (rstrip s).

(** The digits of an integer literal, most significant first; an underscore
    may stand between two digits.  [after_digit] tells whether the character
    just read was a digit. *)
Fixpoint int_digits (acc : Z) (after_digit : bool) (s : string) : option Z :=
  match s with
  | EmptyString => if after_digit then Some acc else None
  | String c s' =>
      if isdecimal c then int_digits (10 * acc + digit_value c) true s'
      else if Ascii.eqb c "_" && after_digit then int_digits acc false s'
      else None
  end.

(** [int(s)] for a str, base 10: [None] is the ValueError "invalid literal
    for int() with base 10".  The interpreter's optional limit on the number
    of digits is not modelled. *)
Definition int (s : string) : option Z :=
  match strip s with
  | EmptyString => None
  | String c ds =>
      if Ascii.eqb c "-" then Z.opp <$> int_digits 0 false ds
      else if Ascii.eqb c "+" then int_digits 0 false ds
      else int_digits 0 false (String c ds)
  end.

End Py.

(** ** SQL pattern matching: [LIKE] and [ILIKE] *)

Module Sql.

(** ASCII case folding, the folding of [ILIKE] on ASCII text. *)
Definition fold_char (c : ascii) : ascii :=
  let n := nat_of_ascii c in
  if ((65 <=? n) && (n <=? 90))%nat then ascii_of_nat (n + 32) else c.

Fixpoint fold (s : string) : string :=
  match s with
  | EmptyString => EmptyString
  | String c s' => String (fold_char c) (fold s')
  end.

(** A pattern is read as a sequence of items: [%] stands for any run of
    characters, [_] for any one character, a backslash makes the character
    after it literal, everything else stands for itself. *)
Inductive item : Type :=
| AnyRun
| AnyOne
| Exactly (c : ascii).

(** [None]: the pattern ends in a lone escape character, which the server
    rejects ("LIKE pattern must not end with escape character"). *)
Fixpoint items (p : string) : option (list item) :=
  match p with
  | EmptyString => Some []
  | String c p' =>
      if Ascii.eqb c "\" then
        match p' with
        | EmptyString => None
        | String d p'' => cons (Exactly d) <$> items p''
        end
      else if Ascii.eqb c "%" then cons AnyRun <$> items p'
      else if Ascii.eqb c "_" then cons AnyOne <$> items p'
      else cons (Exactly c) <$> items p'
  end.

(** Whole-string match of an item sequence; [same] compares characters. *)
Fixpoint matches (same : ascii → ascii → bool) (its : list item)
  : string → bool :=
  match its with
  | [] => fun s => match s with EmptyString => true | _ => false end
  | AnyRun :: its' =>
      fix run (s : string) : bool :=
        matches same its' s ||
        match s with
        | EmptyString => false
        | String _ s' => run s'
        end
  | AnyOne :: its' =>
      fun s => match s with
               | EmptyString => false
               | String _ s' => matches same its' s'
               end
  | Exactly c :: its' =>
      fun s => match s with
               | EmptyString => false
               | String d s' => same c d && matches same its' s'
               end
  end.

Definition same_exact (c d : ascii) : bool := Ascii.eqb c d.
Definition same_folded (c d : ascii) : bool :=
  Ascii.eqb (fold_char c) (fold_char d).

(** [s LIKE p] and [s ILIKE p], given the items of [p]. *)
Definition LIKE (its : list item) (s : string) : bool :=
  matches same_exact its s.
Definition ILIKE (its : list item) (s : string) : bool :=
  matches same_folded its s.

End Sql.


(** ** Exceptions, JSON values and responses *)

Inductive value_error : Type :=
| InvalidLiteral (s : string)   (* invalid literal for int() with base 10 *)
| NotEnoughValues (got : nat)   (* not enough values to unpack (expected 3) *)
| TooManyValues.                (* too many values to unpack (expected 3) *)

Inductive exn : Type :=
| RuntimeError (msg : string)
| ValueError (why : value_error)
| DatabaseError (msg : string).

Inductive result (A : Type) : Type :=
| Return (a : A)
| Raise (e : exn).
Arguments Return {A} a.
Arguments Raise {A} e.

#[local] Set Warnings "-register-all".

(** What [jsonify] is given.  [JExc e] is the string [str(e)]. *)
Inductive json : Type :=
| JBool (b : bool)
| JInt (n : Z)
| JStr (s : string)
| JExc (e : exn)
| JList (l : list json)
| JDict (d : list (string * json)).

(** [d[key] = v] on a dict kept in insertion order. *)
Fixpoint setitem (key : string) (v : json) (d : list (string * json))
  : list (string * json) :=
  match d with
  | [] => [(key, v)]
  | (k, old) :: d' =>
      if String.eqb k key then (k, v) :: d' else (k, old) :: setitem key v d'
  end.

(** [d[key]]. *)
Fixpoint getitem (key : string) (d : list (string * json)) : option json :=
  match d with
  | [] => None
  | (k, v) :: d' => if String.eqb k key then Some v else getitem key d'
  end.

Inductive body : Type :=
| Html (s : string)
| Json (j : json).

(** A view's return value: the body and the HTTP status. *)
Definition response : Type := body * Z.

Definition jsonify (j : json) : body := Json j.

(** [response[key]] of a JSON object response. *)
Definition field (key : string) (r : response) : option json :=
  match r.1 with
  | Json (JDict d) => getitem key d
  | _ => None
  end.

(** ** The store and the process state *)

(** The two tables the routes read: [ns.annotations_terms (study_id, term)]
    and [ns.coordinates (study_id, ST_X(geom), ST_Y(geom), ST_Z(geom))]. *)
Record Database : Type := {
  annotations_terms : list (Z * string);
  coordinates : list (Z * (Z * Z * Z))
}.

Record Engine : Type := { url : string; pool_pre_ping : bool }.

(** [_engine] is the module's global; [DB_URL] is [os.getenv("DB_URL")];
    [server u] is what [begin()] meets at the URL [u]: the driver's error
    text, or the data. *)
Record World : Type := {
  _engine : option Engine;
  DB_URL : option string;
  server : string → string + Database
}.

(** Computations that read and write the process state and may raise. *)
Definition M (A : Type) : Type := World → result A * World.

Definition ret {A} (a : A) : M A := fun w => (Return a, w).
Definition raise {A} (e : exn) : M A := fun w => (Raise e, w).
Definition bind {A B} (m : M A) (k : A → M B) : M B :=
  fun w => match m w with
           | (Return a, w') => k a w'
           | (Raise e, w') => (Raise e, w')
           end.
(** [try: m  except Exception as e: handler e]. *)
Definition try_except {A} (m : M A) (handler : exn → M A) : M A :=
  fun w => match m w with
           | (Return a, w') => (Return a, w')
           | (Raise e, w') => handler e w'
           end.
Definition lift {A} (r : result A) : M A := fun w => (r, w).

#[export] Instance M_ret : MRet M := @ret.
#[export] Instance M_bind : MBind M := λ A B k m, bind m k.

Definition get_engine : M Engine := fun w =>
  match _engine w with
  | Some eng => (Return eng, w)
  | None =>
      match DB_URL w with
      | None | Some EmptyString =>
          (Raise (RuntimeError
             "Missing DB_URL (or DATABASE_URL) environment variable."), w)
      | Some db_url =>
          let db_url :=
            if Py.startswith db_url "postgres://"
            then "postgresql://"
                 +:+ String.substring 11 (String.length db_url - 11) db_url
            else db_url in
          let eng := {| url := db_url; pool_pre_ping := true |} in
          (Return eng,
           {| _engine := Some eng; DB_URL := DB_URL w; server := server w |})
      end
  end.

(** [with eng.begin() as conn]: the connection reads one snapshot. *)
Definition begin (eng : Engine) : M Database := fun w =>
  match server w (url eng) with
  | inl msg => (Raise (DatabaseError msg), w)
  | inr db => (Return db, w)
  end.

#[export] Instance result_ret : MRet result := @Return.
#[export] Instance result_bind : MBind result := λ A B k r,
  match r with
  | Return a => k a
  | Raise e => Raise e
  end.

(** ** The SQL statements the routes send *)

Module Query.

(** The bound parameter [f"%{term}%"]. *)
Definition like_param (term : string) : string := "%" +:+ term +:+ "%".

(** The server reads a pattern before it scans the table. *)
Definition pattern (p : string) : result (list Sql.item) :=
  match Sql.items p with
  | Some its => Return its
  | None =>
      Raise (DatabaseError "LIKE pattern must not end with escape character")
  end.

(** [SELECT DISTINCT term FROM ns.annotations_terms
     WHERE term ILIKE :term LIMIT 10] *)
Definition distinct_term_ilike_limit_10 (db : Database) (param : string)
  : result (list string) :=
  its ← pattern param;
  mret (take 10 (remove_dups
    (filter (λ r, Sql.ILIKE its r.2) (annotations_terms db)).*2)).

(** [SELECT study_id FROM ns.annotations_terms WHERE term LIKE :p] *)
Definition study_id_where_term_like (db : Database) (its : list Sql.item)
  : list Z :=
  (filter (λ r, Sql.LIKE its r.2) (annotations_terms db)).*1.

(** [SELECT COUNT(DISTINCT study_id) AS study_count
     FROM ns.annotations_terms WHERE term LIKE :term]: one row. *)
Definition count_distinct_study_id (db : Database) (param : string)
  : result (list Z) :=
  its ← pattern param;
  mret [Z.of_nat (length (remove_dups (study_id_where_term_like db its)))].

(** [SELECT COUNT( * ) AS intersection_count FROM
     (SELECT study_id ... LIKE :term_a INTERSECT
      SELECT study_id ... LIKE :term_b) AS intersected]: one row. *)
Definition count_intersect (db : Database) (param_a param_b : string)
  : result (list Z) :=
  its_a ← pattern param_a;
  its_b ← pattern param_b;
  let side_a := study_id_where_term_like db its_a in
  let side_b := study_id_where_term_like db its_b in
  mret [Z.of_nat (length (remove_dups (filter (λ s, s ∈ side_b) side_a)))].

(** [SELECT DISTINCT study_id FROM ns.annotations_terms
     WHERE term LIKE :term_a AND study_id NOT IN
       (SELECT study_id FROM ns.annotations_terms WHERE term LIKE :term_b)] *)
Definition distinct_study_id_like_not_in (db : Database)
  (param_a param_b : string) : result (list Z) :=
  its_a ← pattern param_a;
  its_b ← pattern param_b;
  let excluded := study_id_where_term_like db its_b in
  mret (remove_dups
    (filter (λ r, Sql.LIKE its_a r.2 ∧ r.1 ∉ excluded)
       (annotations_terms db)).*1).

(** [SELECT DISTINCT study_id FROM ns.coordinates
     WHERE ST_X(geom) = :x AND ST_Y(geom) = :y AND ST_Z(geom) = :z] *)
Definition distinct_study_id_at (db : Database) (x y z : Z) : list Z :=
  remove_dups (filter (λ r, r.2 = (x, y, z)) (coordinates db)).*1.

End Query.

(** ** The view functions of [create_app] *)

(** [int(piece)] as the views call it. *)
Definition int (piece : string) : result Z :=
  match Py.int piece with
  | Some n => Return n
  | None => Raise (ValueError (InvalidLiteral piece))
  end.

(** [x, y, z = map(int, pieces)]: the pieces are converted one by one as
    the three targets are filled, then one more is asked for. *)
Definition unpack3_map_int (pieces : list string) : result (Z * Z * Z) :=
  match pieces with
  | [] => Raise (ValueError (NotEnoughValues 0))
  | [a] => _ ← int a; Raise (ValueError (NotEnoughValues 1))
  | [a; b] => _ ← int a; _ ← int b; Raise (ValueError (NotEnoughValues 2))
  | a :: b :: c :: more =>
      x ← int a; y ← int b; z ← int c;
      match more with
      | [] => Return (x, y, z)
      | d :: _ => _ ← int d; Raise (ValueError TooManyValues)
      end
  end.

(** [map(int, coords.split("_"))] unpacked into three names: the statement
    both coordinate routes open with. *)
Definition unpack_coords (coords : string) : result (Z * Z * Z) :=
  unpack3_map_int (Py.split "_" coords).

Definition health : M response :=
  mret (Html "<p>Server working!</p>", 200).

Definition get_studies_by_term (term : string) : M response :=
  mret (Html term, 200).

Definition get_studies_by_coordinates (coords : string) : M response :=
  '(x, y, z) ← lift (unpack_coords coords);
  mret (jsonify (JList [JInt x; JInt y; JInt z]), 200).

Definition dissociate_locations (coords1 coords2 : string) : M response :=
  try_except
    ('(x1, y1, z1) ← lift (unpack_coords coords1);
     '(x2, y2, z2) ← lift (unpack_coords coords2);
     eng ← get_engine;
     db ← begin eng;
     let studies1 : gset Z :=
       list_to_set (Query.distinct_study_id_at db x1 y1 z1) in
     let studies2 : gset Z :=
       list_to_set (Query.distinct_study_id_at db x2 y2 z2) in
     let a_to_b := elements (studies1 ∖ studies2) in
     let b_to_a := elements (studies2 ∖ studies1) in
     mret (jsonify (JDict [("a_to_b", JList (JInt <$> a_to_b));
                           ("b_to_a", JList (JInt <$> b_to_a))]), 200))
    (λ e, mret (jsonify (JDict [("error", JExc e)]), 500)).

Definition dissociate_terms (term_a term_b : string) : M response :=
  let term_a := Py.replace "_" " " term_a in
  let term_b := Py.replace "_" " " term_b in
  try_except
    (eng ← get_engine;
     db ← begin eng;
     studies ← lift (Query.distinct_study_id_like_not_in db
                       (Query.like_param term_a) (Query.like_param term_b));
     mret (jsonify (JDict
             [("study_count", JInt (Z.of_nat (length studies)));
              ("dissociated_studies", JList (JInt <$> studies))]), 200))
    (λ e, mret (jsonify (JDict [("error", JExc e)]), 500)).

Definition search_term (term : string) : M response :=
  eng ← get_engine;
  let result := [("term", JStr term); ("exists", JBool false);
                 ("matches", JList [])] in
  try_except
    (db ← begin eng;
     rows ← lift (Query.distinct_term_ilike_limit_10 db
                    (Query.like_param term));
     let result := setitem "matches" (JList (JStr <$> rows)) result in
     let result := setitem "exists" (JBool (0 <? length rows)%nat) result in
     mret (jsonify (JDict result), 200))
    (λ e, mret (jsonify (JDict (setitem "error" (JExc e) result)), 500)).

Definition term_count (term : string) : M response :=
  let term := Py.replace "_" " " term in
  eng ← get_engine;
  try_except
    (db ← begin eng;
     rows ← lift (Query.count_distinct_study_id db (Query.like_param term));
     let result := head rows in
     let count := match result with Some n => n | None => 0 end in
     mret (jsonify (JDict [("term", JStr term);
                           ("study_count", JInt count)]), 200))
    (λ e, mret (jsonify (JDict [("error", JExc e)]), 500)).

Definition intersection_count (term_a term_b : string) : M response :=
  let term_a := Py.replace "_" " " term_a in
  let term_b := Py.replace "_" " " term_b in
  eng ← get_engine;
  try_except
    (db ← begin eng;
     rows ← lift (Query.count_intersect db
                    (Query.like_param term_a) (Query.like_param term_b));
     let result := head rows in
     let count := match result with Some n => n | None => 0 end in
     mret (jsonify (JDict [("intersection_count", JInt count);
                           ("term_a", JStr term_a);
                           ("term_b", JStr term_b)]), 200))
    (λ e, mret (jsonify (JDict [("error", JExc e)]), 500)).

(** The data a request reads when an engine can be had and its connection
    opens; [None] when either step raises. *)
Definition serving (w : World) : option Database :=
  match get_engine w with
  | (Return eng, w') =>
      match server w' (url eng) with
      | inr db => Some db
      | inl _ => None
      end
  | (Raise _, _) => None
  end.

(** ** The vocabulary of the specification *)

(** [needle] occurs in [s] as a substring. *)
Definition substring (needle s : string) : Prop :=
  ∃ before after, s = before +:+ needle +:+ after.

(** No character of [s] is one of [cs]. *)
Fixpoint free_of (cs : list ascii) (s : string) : bool :=
  match s with
  | EmptyString => true
  | String c s' => negb (bool_decide (c ∈ cs)) && free_of cs s'
  end.

(** The characters the pattern language gives a meaning of their own. *)
Definition wildcards : list ascii := ["%"; "_"; "\"]%char.

(** The items of a pattern without wildcards: each character for itself. *)
Fixpoint literal (q : string) : list Sql.item :=
  match q with
  | EmptyString => []
  | String c q' => Sql.Exactly c :: literal q'
  end.

Fixpoint all_chars (P : ascii → bool) (s : string) : bool :=
  match s with
  | EmptyString => true
  | String c s' => P c && all_chars P s'
  end.

(** A base-10 integer literal: an optional sign and one or more decimal
    digits, possibly with white space around. *)
Definition base10_integer (s : string) : Prop :=
  ∃ lead sign digits trail,
    s = lead +:+ sign +:+ digits +:+ trail ∧
    all_chars Py.isspace lead = true ∧
    (sign = "" ∨ sign = "+" ∨ sign = "-") ∧
    digits ≠ "" ∧ all_chars Py.isdecimal digits = true ∧
    all_chars Py.isspace trail = true.

(** The terms of the vocabulary, each once. *)
Definition stored_terms (db : Database) : list string :=
  remove_dups (annotations_terms db).*2.

(** [studiesFor]: the studies annotated with exactly [term]. *)
Definition studiesFor (db : Database) (term : string) : gset Z :=
  list_to_set (filter (λ r, r.2 = term) (annotations_terms db)).*1.

(** The union of [studiesFor] over the stored terms that satisfy [sel]. *)
Definition studies_of_terms (db : Database) (sel : string → bool) : gset Z :=
  ⋃ (studiesFor db <$> filter (λ t, sel t) (stored_terms db)).

(** [studiesMatchingSubstring]: the union of [studiesFor] over every stored
    term that the pattern [%query%] matches under [LIKE]. *)
Definition studiesMatchingSubstring (db : Database) (query : string)
  : gset Z :=
  match Sql.items (Query.like_param query) with
  | Some its => studies_of_terms db (Sql.LIKE its)
  | None => ∅
  end.

(** The stored terms that the pattern [%query%] matches under [ILIKE], all
    of them: what search_term lists, before its limit of 10. *)
Definition matching_terms (db : Database) (query : string) : list string :=
  match Sql.items (Query.like_param query) with
  | Some its => filter (λ t, Sql.ILIKE its t) (stored_terms db)
  | None => []
  end.

(** [studiesAt]: the studies that report exactly the coordinate [c]. *)
Definition studiesAt (db : Database) (c : Z * Z * Z) : gset Z :=
  list_to_set (filter (λ r, r.2 = c) (coordinates db)).*1.

(** ** The URL map *)

(** A routed request: the rule that matched and the text of its variables. *)
Inductive request : Type :=
| GET_health
| GET_terms_studies (term : string)
| GET_locations_studies (coords : string)
| GET_dissociate_locations (coords1 coords2 : string)
| GET_dissociate_terms (term_a term_b : string)
| GET_search_term (term : string)
| GET_term_count (term : string)
| GET_intersection_count (term_a term_b : string).

(** The view each rule of [create_app] names. *)
Definition create_app (r : request) : M response :=
  match r with
  | GET_health => health
  | GET_terms_studies term => get_studies_by_term term
  | GET_locations_studies coords => get_studies_by_coordinates coords
  | GET_dissociate_locations coords1 coords2 =>
      dissociate_locations coords1 coords2
  | GET_dissociate_terms term_a term_b => dissociate_terms term_a term_b
  | GET_search_term term => search_term term
  | GET_term_count term => term_count term
  | GET_intersection_count term_a term_b => intersection_count term_a term_b
  end.

(** The process after it has served the requests one after the other; a
    view that raises leaves the process in the state it had reached. *)
Definition serve (rs : list request) (w : World) : World :=
  fold_left (λ w r, (create_app r w).2) rs w.

(** The process with another value of DB_URL in its environment. *)
Definition setenv_DB_URL (value : option string) (w : World) : World :=
  {| _engine := _engine w; DB_URL := value; server := server w |}.

(** ** Running examples *)

Definition scenario : Database := {|
  annotations_terms := [(1, "amygdala"); (2, "amygdala"); (2, "cortex")];
  coordinates := [(1, (0, 0, 0)); (2, (0, 0, 0)); (2, (1, 1, 1))]
|}.

Definition empty_index : Database :=
  {| annotations_terms := []; coordinates := [] |}.

(** A process whose environment names a store that answers with [db]. *)
Definition world_of (db : Database) : World := {|
  _engine := None;
  DB_URL := Some "postgres://localhost/neurosynth";
  server := λ _, inr db
|}.

(** * Theorems *)

(** ** Strings *)

Lemma append_nil_l (t : string) : "" +:+ t = t.
Proof. reflexivity. Qed.

Lemma append_cons (c : ascii) (s t : string) :
  String c s +:+ t = String c (s +:+ t).
Proof. reflexivity. Qed.

Lemma append_nil_r (s : string) : s +:+ "" = s.
Proof.
  induction s as [|c s IH]; [done|]. by rewrite append_cons, IH.
Qed.

Lemma append_assoc (a b c : string) : (a +:+ b) +:+ c = a +:+ (b +:+ c).
Proof.
  induction a as [|x a IH]; [done|]. by rewrite !append_cons, IH.
Qed.

Lemma substring_refl (s : string) : substring s s.
Proof. exists "", "". by rewrite append_nil_l, append_nil_r. Qed.

Lemma substring_cons (q : string) (c : ascii) (s : string) :
  substring q s → substring q (String c s).
Proof. intros (a & b & ->). by exists (String c a), b. Qed.

(** ** Patterns *)

Lemma items_some_aux (n : nat) :
  ∀ p, (String.length p ≤ n)%nat → is_Some (Sql.items (p +:+ "%")).
Proof.
  induction n as [|n IH]; intros [|c p] Hlen; simpl in Hlen;
    try lia; try by eexists.
  rewrite append_cons. simpl.
  destruct (Ascii.eqb c "\") eqn:Hesc.
  - destruct p as [|d p]; [by eexists|]. rewrite append_cons.
    destruct (IH p ltac:(simpl in Hlen; lia)) as [its ->]. by eexists.
  - destruct (IH p ltac:(lia)) as [its ->].
    destruct (Ascii.eqb c "%"), (Ascii.eqb c "_"); by eexists.
Qed.

(** The parameter [f"%{term}%"] is a pattern the server accepts, whatever
    the term: its last character is never a lone escape. *)
Lemma pattern_like_param (term : string) :
  ∃ its, Query.pattern (Query.like_param term) = Return its
         ∧ Sql.items (Query.like_param term) = Some its.
Proof.
  unfold Query.pattern, Query.like_param. rewrite append_cons, append_nil_l.
  simpl.
  destruct (items_some_aux (String.length term) term (le_n _)) as [its ->].
  simpl. by exists (Sql.AnyRun :: its).
Qed.

Lemma free_of_cons cs c s :
  free_of cs (String c s) = true ↔ (c ∉ cs) ∧ free_of cs s = true.
Proof.
  simpl. rewrite andb_true_iff, negb_true_iff, bool_decide_eq_false. tauto.
Qed.

Lemma items_literal (q : string) :
  free_of wildcards q = true →
  Sql.items (q +:+ "%") = Some (literal q ++ [Sql.AnyRun]).
Proof.
  induction q as [|c q IH]; [done|].
  rewrite free_of_cons. intros [Hc Hq]. rewrite append_cons. simpl.
  assert (Ascii.eqb c "\" = false ∧ Ascii.eqb c "%" = false
          ∧ Ascii.eqb c "_" = false) as (-> & -> & ->).
  { repeat split; apply Ascii.eqb_neq; intros ->; apply Hc;
      unfold wildcards; set_solver. }
  by rewrite IH.
Qed.

Lemma items_like_param_literal (q : string) :
  free_of wildcards q = true →
  Sql.items (Query.like_param q)
  = Some (Sql.AnyRun :: literal q ++ [Sql.AnyRun]).
Proof.
  intros Hq. unfold Query.like_param. rewrite append_cons, append_nil_l.
  simpl. by rewrite items_literal.
Qed.

(** A leading [%] lets the rest of the pattern start anywhere. *)
Lemma matches_run_unfold same its s :
  Sql.matches same (Sql.AnyRun :: its) s
  = Sql.matches same its s ||
    match s with
    | EmptyString => false
    | String _ s' => Sql.matches same (Sql.AnyRun :: its) s'
    end.
Proof. by destruct s. Qed.

Lemma matches_run same its s :
  Sql.matches same (Sql.AnyRun :: its) s = true ↔
  ∃ before rest, s = before +:+ rest ∧ Sql.matches same its rest = true.
Proof.
  induction s as [|c s IH]; rewrite matches_run_unfold, orb_true_iff.
  - split.
    + intros [H|H]; [|done]. by exists "", "".
    + intros ([|??] & rest & Heq & H); [|done].
      rewrite append_nil_l in Heq. subst rest. by left.
  - rewrite IH. split.
    + intros [H|(b & rest & -> & H)].
      * by exists "", (String c s).
      * by exists (String c b), rest.
    + intros ([|d b] & rest & Heq & H).
      * rewrite append_nil_l in Heq. subst rest. by left.
      * rewrite append_cons in Heq. injection Heq as -> ->. right. eauto.
Qed.

Lemma matches_any_run same s : Sql.matches same [Sql.AnyRun] s = true.
Proof. induction s; by rewrite matches_run_unfold. Qed.

(** Matching up to a normalisation of characters: [LIKE] with the identity,
    [ILIKE] with ASCII folding. *)
Section literal_patterns.
Variables (f : ascii → ascii) (norm : string → string).
Variable same : ascii → ascii → bool.
Hypothesis norm_nil : norm "" = "".
Hypothesis norm_cons : ∀ c s, norm (String c s) = String (f c) (norm s).
Hypothesis same_spec : ∀ c d, same c d = Ascii.eqb (f c) (f d).

Lemma norm_app a b : norm (a +:+ b) = norm a +:+ norm b.
Proof.
  induction a as [|c a IH]; [by rewrite norm_nil|].
  by rewrite append_cons, !norm_cons, append_cons, IH.
Qed.

Lemma norm_split a b s :
  norm s = a +:+ b → ∃ s1 s2, s = s1 +:+ s2 ∧ norm s1 = a ∧ norm s2 = b.
Proof.
  revert s. induction a as [|c a IH]; intros s Hs.
  - by exists "", s.
  - destruct s as [|d s]; [by rewrite norm_nil in Hs|].
    rewrite norm_cons, append_cons in Hs. injection Hs as Hd Hs.
    destruct (IH _ Hs) as (s1 & s2 & -> & <- & <-).
    exists (String d s1), s2. by rewrite norm_cons, Hd.
Qed.

Lemma matches_literal_prefix q s :
  Sql.matches same (literal q ++ [Sql.AnyRun]) s = true ↔
  ∃ rest, norm s = norm q +:+ rest.
Proof.
  revert s. induction q as [|c q IH]; intros s.
  - simpl literal. simpl app. rewrite norm_nil.
  split; [|intros _; apply matches_any_run].
    intros _. by exists (norm s).
  - destruct s as [|d s]; simpl.
    + split; [done|]. intros [rest H].
      by rewrite norm_nil, norm_cons, append_cons in H.
    + rewrite andb_true_iff, IH, same_spec, Ascii.eqb_eq, !norm_cons.
      split.
      * intros [-> [rest ->]]. by exists rest.
      * intros [rest H]. rewrite append_cons in H.
        injection H as -> ->. eauto.
Qed.

Lemma matches_literal_anywhere q s :
  Sql.matches same (Sql.AnyRun :: literal q ++ [Sql.AnyRun]) s = true ↔
  substring (norm q) (norm s).
Proof.
  rewrite matches_run. split.
  - intros (b & rest & -> & H).
    apply matches_literal_prefix in H as [after H].
    exists (norm b), after. by rewrite norm_app, H.
  - intros (b & after & H).
    apply norm_split in H as (s1 & s2 & -> & <- & H).
    exists s1, s2. split; [done|]. apply matches_literal_prefix. eauto.
Qed.
End literal_patterns.

(** [LIKE] with a pattern of plain characters between two [%] is the
    substring test, character for character. *)
Lemma like_literal (q t : string) :
  Sql.LIKE (Sql.AnyRun :: literal q ++ [Sql.AnyRun]) t = true ↔ substring q t.
Proof.
  by apply (matches_literal_anywhere (λ c, c) (λ s, s) Sql.same_exact).
Qed.

(** [ILIKE] with such a pattern is the substring test after ASCII folding. *)
Lemma ilike_literal (q t : string) :
  Sql.ILIKE (Sql.AnyRun :: literal q ++ [Sql.AnyRun]) t = true ↔
  substring (Sql.fold q) (Sql.fold t).
Proof.
  by apply (matches_literal_anywhere Sql.fold_char Sql.fold Sql.same_folded).
Qed.

(** [matches] only ever compares characters with [same]. *)
Lemma matches_mono (same same' : ascii → ascii → bool) :
  (∀ c d, same c d = true → same' c d = true) →
  ∀ its s, Sql.matches same its s = true → Sql.matches same' its s = true.
Proof.
  intros Hsame its. induction its as [|[| |c] its IH]; intros s.
  - done.
  - rewrite !matches_run. intros (b & rest & -> & H). eauto.
  - destruct s; simpl; eauto.
  - destruct s; simpl; [done|]. rewrite !andb_true_iff. intros [??]. eauto.
Qed.

(** What [LIKE] matches, [ILIKE] matches. *)
Lemma like_ilike its s : Sql.LIKE its s = true → Sql.ILIKE its s = true.
Proof.
  apply matches_mono. unfold Sql.same_exact, Sql.same_folded.
  intros c d ->%Ascii.eqb_eq. apply Ascii.eqb_refl.
Qed.

Lemma startswith_spec (s p : string) :
  Py.startswith s p = true ↔ ∃ rest, s = p +:+ rest.
Proof.
  revert s. induction p as [|c p IH]; intros s.
  - destruct s; simpl; split; eauto.
  - destruct s as [|d s]; simpl.
    + split; [done|]. by intros [? ?].
    + rewrite andb_true_iff, IH, Ascii.eqb_eq. split.
      * intros [-> [rest ->]]. by exists rest.
      * intros [rest H]. rewrite append_cons in H. injection H as -> ->. eauto.
Qed.

Lemma contains_unfold (s q : string) :
  Py.contains s q
  = Py.startswith s q ||
    match s with
    | EmptyString => false
    | String _ s' => Py.contains s' q
    end.
Proof. by destruct s. Qed.

(** Python's [needle in s] decides [substring]. *)
Lemma contains_spec (s q : string) :
  Py.contains s q = true ↔ substring q s.
Proof.
  induction s as [|c s IH];
    rewrite contains_unfold, orb_true_iff, startswith_spec.
  - split.
    + intros [[rest H]|?]; [|done]. by exists "", rest.
    + intros ([|??] & rest & H); [|done]. rewrite append_nil_l in H. eauto.
  - rewrite IH. split.
    + intros [[rest H]|H]; [by exists "", rest | by apply substring_cons].
    + intros ([|d b] & rest & H).
      * rewrite append_nil_l in H. eauto.
      * rewrite append_cons in H. injection H as -> ->. right.
        by exists b, rest.
Qed.

Lemma not_substring (s q : string) :
  Py.contains s q = false → ¬ substring q s.
Proof. intros H Hs%contains_spec. congruence. Qed.

(** ** Running a view against a serving store *)

Lemma serving_run (w : World) (db : Database) :
  serving w = Some db →
  ∃ eng w', get_engine w = (Return eng, w') ∧ begin eng w' = (Return db, w').
Proof.
  unfold serving, begin. destruct (get_engine w) as [[eng|e] w']; [|done].
  destruct (server w' (url eng)) eqn:Hs; [done|].
  intros [= ->]. exists eng, w'. by rewrite Hs.
Qed.

Lemma serving_world_of (db : Database) : serving (world_of db) = Some db.
Proof. reflexivity. Qed.

(** Unfolds the monad of a view once the store is known to serve. *)
Ltac run_view Hserving :=
  let eng := fresh "eng" in
  let w' := fresh "w'" in
  let Hget := fresh "Hget" in
  let Hbegin := fresh "Hbegin" in
  destruct (serving_run _ _ Hserving) as (eng & w' & Hget & Hbegin);
  unfold mbind, M_bind, bind, try_except, lift, mret, M_ret, ret;
  rewrite ?Hget; simpl; rewrite ?Hbegin; simpl.

(** ** The study sets behind the statements *)

Lemma elem_of_study_id_where_term_like db its (s : Z) :
  s ∈ Query.study_id_where_term_like db its ↔
  ∃ t, (s, t) ∈ annotations_terms db ∧ Sql.LIKE its t = true.
Proof.
  unfold Query.study_id_where_term_like. rewrite list_elem_of_fmap. split.
  - intros ([s' t] & -> & [H ?]%list_elem_of_filter). simpl in *.
    exists t. split; [done | by apply Is_true_true].
  - intros (t & Hr & H). exists (s, t). split; [done|].
    apply list_elem_of_filter. split; [by apply Is_true_true | done].
Qed.

Lemma elem_of_studiesFor db term (s : Z) :
  s ∈ studiesFor db term ↔ (s, term) ∈ annotations_terms db.
Proof.
  unfold studiesFor. rewrite elem_of_list_to_set, list_elem_of_fmap. split.
  - by intros ([s' t] & -> & [<- ?]%list_elem_of_filter).
  - intros Hr. exists (s, term). split; [done|].
    by apply list_elem_of_filter.
Qed.

(** The union ranges over every stored term the selection accepts. *)
Lemma elem_of_studies_of_terms db (sel : string → bool) (s : Z) :
  s ∈ studies_of_terms db sel ↔
  ∃ t, (s, t) ∈ annotations_terms db ∧ sel t = true.
Proof.
  unfold studies_of_terms. rewrite elem_of_union_list. split.
  - intros (X & (t & -> & [H ?]%list_elem_of_filter)%list_elem_of_fmap & Hs).
    apply elem_of_studiesFor in Hs. exists t.
    split; [done | by apply Is_true_true].
  - intros (t & Hr & H). exists (studiesFor db t). split.
    + apply list_elem_of_fmap. exists t. split; [done|].
      apply list_elem_of_filter. split; [by apply Is_true_true|].
      unfold stored_terms. rewrite elem_of_remove_dups, list_elem_of_fmap.
      by exists (s, t).
    + by apply elem_of_studiesFor.
Qed.

Lemma study_id_where_term_like_set db its :
  list_to_set (Query.study_id_where_term_like db its)
  = studies_of_terms db (Sql.LIKE its).
Proof.
  apply set_eq. intros s.
  by rewrite elem_of_list_to_set, elem_of_study_id_where_term_like,
    elem_of_studies_of_terms.
Qed.

Lemma studiesMatchingSubstring_items db q its :
  Sql.items (Query.like_param q) = Some its →
  studiesMatchingSubstring db q = studies_of_terms db (Sql.LIKE its).
Proof. unfold studiesMatchingSubstring. by intros ->. Qed.

Lemma length_remove_dups_size (l : list Z) :
  length (remove_dups l) = size (list_to_set l : gset Z).
Proof.
  rewrite <- (size_list_to_set (C := gset Z) (remove_dups l))
    by apply NoDup_remove_dups.
  f_equal. apply set_eq. intros x.
  by rewrite !elem_of_list_to_set, elem_of_remove_dups.
Qed.

Lemma elem_of_distinct_study_id_at db x y z (s : Z) :
  s ∈ Query.distinct_study_id_at db x y z ↔ (s, (x, y, z)) ∈ coordinates db.
Proof.
  unfold Query.distinct_study_id_at.
  rewrite elem_of_remove_dups, list_elem_of_fmap. split.
  - by intros ([s' c] & -> & [<- ?]%list_elem_of_filter).
  - intros Hr. exists (s, (x, y, z)). split; [done|].
    by apply list_elem_of_filter.
Qed.

Lemma elem_of_studiesAt db c (s : Z) :
  s ∈ studiesAt db c ↔ (s, c) ∈ coordinates db.
Proof.
  unfold studiesAt. rewrite elem_of_list_to_set, list_elem_of_fmap. split.
  - by intros ([s' c'] & -> & [<- ?]%list_elem_of_filter).
  - intros Hr. exists (s, c). split; [done|]. by apply list_elem_of_filter.
Qed.

Lemma distinct_study_id_at_set db x y z :
  list_to_set (Query.distinct_study_id_at db x y z) = studiesAt db (x, y, z).
Proof.
  apply set_eq. intros s.
  by rewrite elem_of_list_to_set, elem_of_distinct_study_id_at,
    elem_of_studiesAt.
Qed.

(** ** The views in closed form *)

Lemma term_count_run w db term its :
  serving w = Some db →
  Sql.items (Query.like_param (Py.replace "_" " " term)) = Some its →
  (term_count term w).1
  = Return (jsonify (JDict
      [("term", JStr (Py.replace "_" " " term));
       ("study_count",
        JInt (Z.of_nat (size (studies_of_terms db (Sql.LIKE its)))))]), 200).
Proof.
  intros Hs Hits. unfold term_count. run_view Hs.
  unfold Query.count_distinct_study_id, Query.pattern. rewrite Hits. simpl.
  by rewrite length_remove_dups_size, study_id_where_term_like_set.
Qed.

Lemma replace_underscore_plain (term : string) :
  free_of ["%"; "\"]%char term = true →
  free_of wildcards (Py.replace "_" " " term) = true.
Proof.
  induction term as [|c term IH]; [done|].
  rewrite free_of_cons. intros [Hc Hterm].
  change (Py.replace "_" " " (String c term))
    with (String (if Ascii.eqb c "_" then " "%char else c)
            (Py.replace "_" " " term)).
  apply free_of_cons. split; [|by apply IH].
  destruct (Ascii.eqb_spec c "_") as [->|Hne].
  - unfold wildcards. rewrite !elem_of_cons.
    intros [?|[?|[?|?%elem_of_nil]]]; done.
  - unfold wildcards. rewrite !elem_of_cons.
    intros [->|[->|[->|?%elem_of_nil]]]; try done; apply Hc; set_solver.
Qed.

Lemma replace_underscore_id (term : string) :
  free_of wildcards term = true → Py.replace "_" " " term = term.
Proof.
  induction term as [|c term IH]; [done|].
  rewrite free_of_cons. intros [Hc Hterm].
  change (Py.replace "_" " " (String c term))
    with (String (if Ascii.eqb c "_" then " "%char else c)
            (Py.replace "_" " " term)).
  rewrite IH by done. destruct (Ascii.eqb_spec c "_") as [->|Hne]; [|done].
  destruct Hc. unfold wildcards. set_solver.
Qed.

Lemma fold_substring (q t : string) :
  substring q t → substring (Sql.fold q) (Sql.fold t).
Proof.
  intros Hsub. apply ilike_literal, like_ilike. by apply like_literal.
Qed.

(** ** Term matching (C1) *)




(** ** Counting the studies of a term (C4) *)




(** ** Searching the vocabulary (C8) *)

Lemma elem_of_matching_terms db its (t : string) :
  t ∈ remove_dups (filter (λ r, Sql.ILIKE its r.2) (annotations_terms db)).*2
  ↔ t ∈ stored_terms db ∧ Sql.ILIKE its t = true.
Proof.
  unfold stored_terms. rewrite !elem_of_remove_dups, !list_elem_of_fmap. split.
  - intros ([s t'] & -> & [H ?]%list_elem_of_filter). simpl in *.
    split; [by exists (s, t') | by apply Is_true_true].
  - intros [([s t'] & -> & Hr) H]. exists (s, t'). split; [done|].
    apply list_elem_of_filter. split; [by apply Is_true_true | done].
Qed.

Lemma nonempty_length {A} (l : list A) :
  (0 <? length l)%nat = bool_decide (l ≠ []).
Proof. by destruct l. Qed.

Lemma search_term_run w db term its :
  serving w = Some db →
  Sql.items (Query.like_param term) = Some its →
  let matches :=
    take 10 (remove_dups
      (filter (λ r, Sql.ILIKE its r.2) (annotations_terms db)).*2) in
  (search_term term w).1
  = Return (jsonify (JDict
      [("term", JStr term);
       ("exists", JBool (bool_decide (matches ≠ [])));
       ("matches", JList (JStr <$> matches))]), 200).
Proof.
  intros Hs Hits. unfold search_term. run_view Hs.
  unfold Query.distinct_term_ilike_limit_10, Query.pattern. rewrite Hits.
  simpl. by rewrite nonempty_length.
Qed.




(** ** Dissociating two terms (C3) *)

Lemma elem_of_like_not_in db its_a its_b (s : Z) :
  s ∈ remove_dups
        (filter (λ r, Sql.LIKE its_a r.2
                      ∧ r.1 ∉ Query.study_id_where_term_like db its_b)
           (annotations_terms db)).*1
  ↔ s ∈ studies_of_terms db (Sql.LIKE its_a)
       ∖ studies_of_terms db (Sql.LIKE its_b).
Proof.
  rewrite elem_of_remove_dups, list_elem_of_fmap, elem_of_difference.
  rewrite <- (study_id_where_term_like_set db its_b), elem_of_list_to_set.
  rewrite elem_of_studies_of_terms. split.
  - intros ([s' t] & -> & [[H Hout] ?]%list_elem_of_filter). simpl in *.
    split; [|done]. exists t. split; [done | by apply Is_true_true].
  - intros [(t & Hr & H) Hout]. exists (s, t). split; [done|].
    apply list_elem_of_filter. split; [|done].
    split; [by apply Is_true_true | done].
Qed.

Lemma dissociate_terms_run w db term_a term_b its_a its_b :
  serving w = Some db →
  Sql.items (Query.like_param (Py.replace "_" " " term_a)) = Some its_a →
  Sql.items (Query.like_param (Py.replace "_" " " term_b)) = Some its_b →
  let studies :=
    remove_dups
      (filter (λ r, Sql.LIKE its_a r.2
                    ∧ r.1 ∉ Query.study_id_where_term_like db its_b)
         (annotations_terms db)).*1 in
  (dissociate_terms term_a term_b w).1
  = Return (jsonify (JDict
      [("study_count", JInt (Z.of_nat (length studies)));
       ("dissociated_studies", JList (JInt <$> studies))]), 200).
Proof.
  intros Hs Ha Hb. unfold dissociate_terms. run_view Hs.
  unfold Query.distinct_study_id_like_not_in, Query.pattern.
  rewrite Ha, Hb. by simpl.
Qed.



(** ** Counting the studies two terms share (C5) *)

Lemma intersect_set db its_a its_b :
  list_to_set
    (filter (λ s, s ∈ Query.study_id_where_term_like db its_b)
       (Query.study_id_where_term_like db its_a))
  = studies_of_terms db (Sql.LIKE its_a)
      ∩ studies_of_terms db (Sql.LIKE its_b).
Proof.
  apply set_eq. intros s.
  rewrite elem_of_list_to_set, list_elem_of_filter, elem_of_intersection.
  rewrite <- !study_id_where_term_like_set, !elem_of_list_to_set. tauto.
Qed.

Lemma intersection_count_run w db term_a term_b its_a its_b :
  serving w = Some db →
  Sql.items (Query.like_param (Py.replace "_" " " term_a)) = Some its_a →
  Sql.items (Query.like_param (Py.replace "_" " " term_b)) = Some its_b →
  (intersection_count term_a term_b w).1
  = Return (jsonify (JDict
      [("intersection_count",
        JInt (Z.of_nat (size (studies_of_terms db (Sql.LIKE its_a)
                                ∩ studies_of_terms db (Sql.LIKE its_b)))));
       ("term_a", JStr (Py.replace "_" " " term_a));
       ("term_b", JStr (Py.replace "_" " " term_b))]), 200).
Proof.
  intros Hs Ha Hb. unfold intersection_count. run_view Hs.
  unfold Query.count_intersect, Query.pattern. rewrite Ha, Hb. simpl.
  by rewrite length_remove_dups_size, intersect_set.
Qed.



(** ** Dissociating two locations (C6) *)

Lemma dissociate_locations_run w db coords1 coords2 c1 c2 :
  serving w = Some db →
  unpack_coords coords1 = Return c1 →
  unpack_coords coords2 = Return c2 →
  (dissociate_locations coords1 coords2 w).1
  = Return (jsonify (JDict
      [("a_to_b",
        JList (JInt <$> elements (studiesAt db c1 ∖ studiesAt db c2)));
       ("b_to_a",
        JList (JInt <$> elements (studiesAt db c2 ∖ studiesAt db c1)))]),
      200).
Proof.
  intros Hs H1 H2. destruct c1 as [[x1 y1] z1], c2 as [[x2 y2] z2].
  destruct (serving_run _ _ Hs) as (eng & w' & Hget & Hbegin).
  unfold dissociate_locations, mbind, M_bind, bind, try_except, lift.
  rewrite H1, H2, Hget, Hbegin. unfold mret, M_ret, ret. cbn [fst].
  by rewrite !distinct_study_id_at_set.
Qed.



(** ** Reading a coordinate literal (C7) *)

Lemma free_of_app cs a b :
  free_of cs (a +:+ b) = free_of cs a && free_of cs b.
Proof.
  induction a as [|c a IH]; [done|].
  rewrite append_cons. simpl. by rewrite IH, andb_assoc.
Qed.

Lemma rstrip_spec (s : string) :
  ∃ trail, s = Py.rstrip s +:+ trail ∧ all_chars Py.isspace trail = true.
Proof.
  induction s as [|c s (trail & Hs & Htrail)]; [by exists ""|].
  simpl. destruct (Py.rstrip s) as [|d kept] eqn:Hr.
  - rewrite append_nil_l in Hs. subst trail.
    destruct (Py.isspace c) eqn:Hc.
    + exists (String c s). simpl. by rewrite Hc.
    + by exists s.
  - exists trail. by rewrite append_cons, <- Hs.
Qed.

Lemma lstrip_spec (s : string) :
  ∃ lead, s = lead +:+ Py.lstrip s ∧ all_chars Py.isspace lead = true.
Proof.
  induction s as [|c s (lead & Hs & Hlead)]; [by exists ""|].
  simpl. destruct (Py.isspace c) eqn:Hc.
  - exists (String c lead). simpl. by rewrite Hc, append_cons, <- Hs.
  - by exists "".
Qed.

Lemma strip_spec (s : string) :
  ∃ lead trail, s = lead +:+ Py.strip s +:+ trail ∧
    all_chars Py.isspace lead = true ∧ all_chars Py.isspace trail = true.
Proof.
  destruct (rstrip_spec s) as (trail & Hs & Htrail).
  destruct (lstrip_spec (Py.rstrip s)) as (lead & Hr & Hlead).
  exists lead, trail. unfold Py.strip.
  by rewrite <- append_assoc, <- Hr.
Qed.

Lemma int_digits_shape (ds : string) :
  free_of ["_"]%char ds = true →
  ∀ acc after n, Py.int_digits acc after ds = Some n →
    all_chars Py.isdecimal ds = true ∧ (after = false → ds ≠ "").
Proof.
  induction ds as [|c ds IH]; intros Hfree acc after n; simpl.
  - destruct after; [|done]. by intros _.
  - apply free_of_cons in Hfree as [Hc Hds].
    destruct (Py.isdecimal c).
    + intros [Hall _]%(IH Hds). by split.
    + destruct (Ascii.eqb_spec c "_") as [->|_]; [|done].
      destruct Hc. by apply list_elem_of_singleton.
Qed.

(** What [int] accepts, when there is no underscore in it, is an optional
    sign and decimal digits with white space around. *)
Lemma int_shape (s : string) (n : Z) :
  free_of ["_"]%char s = true → Py.int s = Some n → base10_integer s.
Proof.
  intros Hfree. unfold Py.int.
  destruct (strip_spec s) as (lead & trail & Hs & Hlead & Htrail).
  assert (free_of ["_"]%char (Py.strip s) = true) as Hbody.
  { rewrite Hs, !free_of_app, !andb_true_iff in Hfree. tauto. }
  destruct (Py.strip s) as [|c ds] eqn:Hstrip; [done|].
  pose proof Hbody as [Hc Hds]%free_of_cons.
  destruct (Ascii.eqb_spec c "-") as [->|_];
    [|destruct (Ascii.eqb_spec c "+") as [->|_]].
  - destruct (Py.int_digits 0 false ds) as [m|] eqn:Hm; [|done]. intros _.
    destruct (int_digits_shape ds Hds _ _ _ Hm) as [Hall Hne].
    exists lead, "-", ds, trail. rewrite Hs. repeat split; auto.
  - intros Hm.
    destruct (int_digits_shape ds Hds _ _ _ Hm) as [Hall Hne].
    exists lead, "+", ds, trail. rewrite Hs. repeat split; auto.
  - intros Hm.
    destruct (int_digits_shape _ Hbody _ _ _ Hm) as [Hall Hne].
    exists lead, "", (String c ds), trail. rewrite Hs. repeat split; auto.
Qed.

Lemma split_pieces_free (s : string) :
  ∀ piece, piece ∈ Py.split "_" s → free_of ["_"]%char piece = true.
Proof.
  induction s as [|c s IH]; intros piece; simpl.
  - by intros ->%list_elem_of_singleton.
  - destruct (Ascii.eqb_spec c "_") as [->|Hc].
    + intros [->|?]%elem_of_cons; [done | by apply IH].
    + destruct (Py.split "_" s) as [|first rest].
      * intros ->%list_elem_of_singleton. apply free_of_cons.
        split; [by intros ?%list_elem_of_singleton | done].
      * intros [->|?]%elem_of_cons.
        -- apply free_of_cons.
           split; [by intros ?%list_elem_of_singleton|]. apply IH. by left.
        -- apply IH. by right.
Qed.

Lemma int_return (piece : string) (n : Z) :
  int piece = Return n → Py.int piece = Some n.
Proof. unfold int. by destruct (Py.int piece); intros [= ->]. Qed.

Lemma int_raises (piece : string) :
  (∃ n, int piece = Return n) ∨
  int piece = Raise (ValueError (InvalidLiteral piece)).
Proof. unfold int. destruct (Py.int piece); eauto. Qed.

(** The unpacking yields a triple only from exactly three pieces, each of
    which [int] accepts; whatever else it meets, it raises a ValueError. *)
Lemma unpack3_map_int_cases (pieces : list string) :
  (∃ a b c x y z, pieces = [a; b; c] ∧ int a = Return x ∧ int b = Return y
                  ∧ int c = Return z
                  ∧ unpack3_map_int pieces = Return (x, y, z))
  ∨ (∃ why, unpack3_map_int pieces = Raise (ValueError why)).
Proof.
  destruct pieces as [|a [|b [|c [|d more]]]]; simpl;
    unfold mbind, result_bind;
    repeat match goal with
    | |- context [int ?p] =>
        let H := fresh "Hint" in
        destruct (int_raises p) as [[? H]|H]; rewrite ?H
    end;
    try (right; eexists; reflexivity).
  left. repeat eexists; eauto.
Qed.



(** ** The studies of a term (C10) *)

(** C10.  get_studies_by_term answers with its input, character for
    character, whatever the state of the process: it asks for no engine,
    opens no connection, raises nothing and leaves the process as it was. *)
Theorem get_studies_by_term_echo (w : World) (term : string) :
  get_studies_by_term term w = (Return (Html term, 200), w).
Proof. reflexivity. Qed.

(** ** Questions without a match (C9) *)

Lemma no_matching_terms db term its :
  Sql.items (Query.like_param term) = Some its →
  matching_terms db term = [] →
  remove_dups (filter (λ r, Sql.ILIKE its r.2) (annotations_terms db)).*2 = [].
Proof.
  unfold matching_terms. intros -> Hnone. apply elem_of_nil_inv.
  intros t [Hst H]%elem_of_matching_terms.
  assert (t ∈ filter (λ t, Sql.ILIKE its t) (stored_terms db)) as Hin.
  { apply list_elem_of_filter. split; [by apply Is_true_true | done]. }
  rewrite Hnone in Hin. by apply elem_of_nil in Hin.
Qed.

Lemma no_dissociated_studies db its_a its_b :
  studies_of_terms db (Sql.LIKE its_a) = ∅ →
  remove_dups
    (filter (λ r, Sql.LIKE its_a r.2
                  ∧ r.1 ∉ Query.study_id_where_term_like db its_b)
       (annotations_terms db)).*1 = [].
Proof.
  intros Hnone. apply elem_of_nil_inv.
  intros s [Hs _]%elem_of_like_not_in%elem_of_difference.
  rewrite Hnone in Hs. by apply elem_of_empty in Hs.
Qed.



(** ** Underscores in term inputs (C2) *)

Lemma replace_underscore_idem (term : string) :
  Py.replace "_" " " (Py.replace "_" " " term) = Py.replace "_" " " term.
Proof.
  induction term as [|c term IH]; [done|]. simpl. rewrite IH.
  by destruct (Ascii.eqb_spec c "_") as [->|Hc];
    [|destruct (Ascii.eqb_spec c "_")].
Qed.

(** C2.  term_count, intersection_count and dissociate_terms turn every
    underscore of their inputs into a space before anything else, so each
    answers an input as it answers the input with spaces.  search_term does
    not: it sends its input as typed, where the underscore is the pattern
    character for any one character.  For "frontal_cortex" it finds
    "frontal-cortex" and repeats the input with its underscore; for the
    phrase "frontal cortex" it finds nothing. *)
Theorem underscores_in_term_inputs :
  (∀ term w,
     term_count term w = term_count (Py.replace "_" " " term) w) ∧
  (∀ term_a term_b w,
     intersection_count term_a term_b w
     = intersection_count (Py.replace "_" " " term_a)
         (Py.replace "_" " " term_b) w) ∧
  (∀ term_a term_b w,
     dissociate_terms term_a term_b w
     = dissociate_terms (Py.replace "_" " " term_a)
         (Py.replace "_" " " term_b) w) ∧
  let db := {| annotations_terms := [(1, "frontal-cortex")];
               coordinates := [] |} in
  (search_term "frontal_cortex" (world_of db)).1
  = Return (jsonify (JDict [("term", JStr "frontal_cortex");
                            ("exists", JBool true);
                            ("matches", JList [JStr "frontal-cortex"])]),
            200) ∧
  (search_term "frontal cortex" (world_of db)).1
  = Return (jsonify (JDict [("term", JStr "frontal cortex");
                            ("exists", JBool false);
                            ("matches", JList [])]), 200) ∧
  (term_count "frontal_cortex" (world_of db)).1
  = Return (jsonify (JDict [("term", JStr "frontal cortex");
                            ("study_count", JInt 0)]), 200).
Proof.
  split; [|split; [|split]].
  - intros term w. unfold term_count. by rewrite replace_underscore_idem.
  - intros term_a term_b w. unfold intersection_count.
    by rewrite !replace_underscore_idem.
  - intros term_a term_b w. unfold dissociate_terms.
    by rewrite !replace_underscore_idem.
  - by repeat split.
Qed.

(** ** The scenarios of the specification, run *)

Example scenario_search_term :
  (search_term "amygd" (world_of scenario)).1
  = Return (jsonify (JDict [("term", JStr "amygd"); ("exists", JBool true);
                            ("matches", JList [JStr "amygdala"])]), 200).
Proof. reflexivity. Qed.

Example scenario_term_count :
  (term_count "amygdala" (world_of scenario)).1
  = Return (jsonify (JDict [("term", JStr "amygdala");
                            ("study_count", JInt 2)]), 200).
Proof. reflexivity. Qed.

Example scenario_intersection_count :
  (intersection_count "amygdala" "cortex" (world_of scenario)).1
  = Return (jsonify (JDict [("intersection_count", JInt 1);
                            ("term_a", JStr "amygdala");
                            ("term_b", JStr "cortex")]), 200).
Proof. reflexivity. Qed.

Example scenario_dissociate_locations :
  (dissociate_locations "0_0_0" "1_1_1" (world_of scenario)).1
  = Return (jsonify (JDict [("a_to_b", JList [JInt 1]);
                            ("b_to_a", JList [])]), 200).
Proof. reflexivity. Qed.

Example scenario_get_studies_by_coordinates :
  (get_studies_by_coordinates " 3_+4_-05" (world_of scenario)).1
  = Return (jsonify (JList [JInt 3; JInt 4; JInt (-5)]), 200).
Proof. reflexivity. Qed.

(** Without DB_URL the routes that ask for the engine outside their [try]
    raise; dissociate_terms, which asks inside, answers 500. *)
Example missing_db_url :
  let w := {| _engine := None; DB_URL := None; server := λ _, inr scenario |} in
  (term_count "amygdala" w).1
  = Raise (RuntimeError
             "Missing DB_URL (or DATABASE_URL) environment variable.") ∧
  (dissociate_terms "amygdala" "cortex" w).1
  = Return (jsonify (JDict
      [("error", JExc (RuntimeError
          "Missing DB_URL (or DATABASE_URL) environment variable."))]), 500).
Proof. by split. Qed.

(** When the connection cannot be opened, search_term answers 500 with its
    initial result and the error. *)
Example store_unavailable :
  let w := {| _engine := None; DB_URL := Some "postgresql://down/db";
              server := λ _, inl "connection refused" |} in
  (search_term "amygdala" w).1
  = Return (jsonify (JDict
      [("term", JStr "amygdala"); ("exists", JBool false);
       ("matches", JList []);
       ("error", JExc (DatabaseError "connection refused"))]), 500).
Proof. reflexivity. Qed.

(** The engine is made once: the second call finds it in [_engine]. *)
Example engine_is_cached :
  let w := world_of scenario in
  (get_engine (get_engine w).2).1 = (get_engine w).1
  ∧ (get_engine (get_engine w).2).2 = (get_engine w).2
  ∧ url <$> _engine (get_engine w).2
    = Some "postgresql://localhost/neurosynth".
Proof. by repeat split. Qed.

(** * Further properties of the code *)

(** ** The engine *)

Lemma get_engine_twice (w : World) :
  get_engine (get_engine w).2 = get_engine w.
Proof.
  unfold get_engine. destruct (_engine w) as [eng|] eqn:Heng; simpl.
  - by rewrite Heng.
  - destruct (DB_URL w) as [[|c u]|] eqn:Hurl; simpl; by rewrite ?Heng, ?Hurl.
Qed.

Lemma get_engine_state (w : World) :
  DB_URL (get_engine w).2 = DB_URL w ∧
  server (get_engine w).2 = server w ∧
  (∀ eng, _engine w = Some eng → _engine (get_engine w).2 = Some eng).
Proof.
  unfold get_engine. destruct (_engine w) as [eng|] eqn:Heng; simpl.
  - by rewrite Heng.
  - destruct (DB_URL w) as [[|c u]|] eqn:Hurl; simpl; by rewrite ?Heng, ?Hurl.
Qed.

(** X1.  Once an engine has been made, get_engine hands out that engine and
    leaves the process alone, whatever DB_URL has become since: unset,
    emptied or pointed elsewhere. *)
Theorem get_engine_survives_environment
  (w w' : World) (eng : Engine) (value : option string) :
  get_engine w = (Return eng, w') →
  get_engine (setenv_DB_URL value w') = (Return eng, setenv_DB_URL value w').
Proof.
  unfold get_engine, setenv_DB_URL. simpl.
  destruct (_engine w) as [cached|] eqn:Heng.
  - intros [= -> <-]. by rewrite Heng.
  - destruct (DB_URL w) as [[|c u]|]; [done| |done]. by intros [= <- <-].
Qed.

Lemma get_engine_survives_environment_witness :
  let w' := (get_engine (world_of scenario)).2 in
  get_engine (setenv_DB_URL None w')
  = (Return {| url := "postgresql://localhost/neurosynth";
               pool_pre_ping := true |}, setenv_DB_URL None w').
Proof.
  exact (get_engine_survives_environment (world_of scenario) _ _ None eq_refl).
Defined.



Lemma substring_whole (s : string) :
  String.substring 0 (String.length s) s = s.
Proof. induction s as [|c s IH]; simpl; [done | by rewrite IH]. Qed.



(** ** The process across requests *)

Ltac unfold_views :=
  unfold create_app, health, get_studies_by_term, get_studies_by_coordinates,
    dissociate_locations, dissociate_terms, search_term, term_count,
    intersection_count, mbind, M_bind, bind, try_except, lift, mret, M_ret,
    ret, begin.

(** A view leaves the process as it found it, or as get_engine leaves it. *)
Lemma view_state (r : request) (w : World) :
  (create_app r w).2 = w ∨ (create_app r w).2 = (get_engine w).2.
Proof.
  destruct r; unfold_views;
    try destruct (unpack_coords coords1) as [[[??]?]|?];
    try destruct (unpack_coords coords2) as [[[??]?]|?];
    try destruct (unpack_coords coords) as [[[??]?]|?];
    simpl; auto;
    destruct (get_engine w) as [[eng|e] w1]; simpl; auto;
    destruct (server w1 (url eng)); simpl; auto;
    repeat case_match; simplify_eq; auto.
Qed.

(** An engine made earlier changes no answer. *)
Lemma view_transparent (r : request) (w : World) :
  (create_app r (get_engine w).2).1 = (create_app r w).1.
Proof.
  destruct r; unfold_views;
    try destruct (unpack_coords coords1) as [[[??]?]|?];
    try destruct (unpack_coords coords2) as [[[??]?]|?];
    try destruct (unpack_coords coords) as [[[??]?]|?];
    simpl; auto;
    rewrite get_engine_twice;
    destruct (get_engine w) as [[eng|e] w1]; simpl; auto.
Qed.

Lemma serve_cons (r : request) (rs : list request) (w : World) :
  serve (r :: rs) w = serve rs (create_app r w).2.
Proof. reflexivity. Qed.

Lemma serve_state (rs : list request) (w : World) :
  serve rs w = w ∨ serve rs w = (get_engine w).2.
Proof.
  revert w. induction rs as [|r rs IH]; intros w; [by left|].
  rewrite serve_cons. destruct (view_state r w) as [-> | ->]; [apply IH|].
  right. destruct (IH (get_engine w).2) as [-> | ->]; [done|].
  by rewrite get_engine_twice.
Qed.

(** X4.  Serving requests, in any number and order, never touches DB_URL or the
    server, and never replaces or drops an engine that has been made: the
    only trace requests leave in the process is the engine of the first
    successful get_engine. *)
Theorem requests_keep_the_process (rs : list request) (w : World) :
  DB_URL (serve rs w) = DB_URL w ∧
  server (serve rs w) = server w ∧
  (∀ eng, _engine w = Some eng → serve rs w = w) ∧
  (serve rs w = w ∨ serve rs w = (get_engine w).2).
Proof.
  pose proof (serve_state rs w) as Hstate.
  destruct (get_engine_state w) as (Hurl & Hserver & Hkeep).
  split; [by destruct Hstate as [-> | ->]|].
  split; [by destruct Hstate as [-> | ->]|]. split; [|done].
  intros eng Heng. destruct Hstate as [-> | ->]; [done|].
  unfold get_engine. by rewrite Heng.
Qed.

Lemma requests_keep_the_process_witness :
  let w := (get_engine (world_of scenario)).2 in
  serve [GET_term_count "amygdala"; GET_locations_studies "1_2";
         GET_dissociate_terms "a" "b"] w = w.
Proof.
  exact (proj1 (proj2 (proj2 (requests_keep_the_process
           [GET_term_count "amygdala"; GET_locations_studies "1_2";
            GET_dissociate_terms "a" "b"]
           (get_engine (world_of scenario)).2))) _ eq_refl).
Defined.

(** X5.  The answer to a request does not depend on the requests served before
    it: the engine kept in [_engine] is the one the request would have made
    itself. *)
Theorem answers_do_not_depend_on_history
  (rs : list request) (r : request) (w : World) :
  (create_app r (serve rs w)).1 = (create_app r w).1.
Proof.
  destruct (serve_state rs w) as [-> | ->]; [done | apply view_transparent].
Qed.

(** ** Failures of the engine and of the store *)

(** X6.  When no engine can be had, search_term, term_count and
    intersection_count let the error of get_engine escape, for they ask for
    the engine before their [try]; dissociate_terms and
    dissociate_locations ask inside it and answer 500 with the error. *)
Theorem without_an_engine (w w' : World) (e : exn) :
  get_engine w = (Raise e, w') →
  (∀ term, search_term term w = (Raise e, w')) ∧
  (∀ term, term_count term w = (Raise e, w')) ∧
  (∀ term_a term_b, intersection_count term_a term_b w = (Raise e, w')) ∧
  (∀ term_a term_b,
     dissociate_terms term_a term_b w
     = (Return (jsonify (JDict [("error", JExc e)]), 500), w')) ∧
  (∀ coords1 coords2 c1 c2,
     unpack_coords coords1 = Return c1 →
     unpack_coords coords2 = Return c2 →
     dissociate_locations coords1 coords2 w
     = (Return (jsonify (JDict [("error", JExc e)]), 500), w')).
Proof.
  intros Hget. repeat apply conj; intros; unfold_views;
    rewrite ?H, ?H0; repeat case_match; simplify_eq; by rewrite ?Hget.
Qed.

Lemma without_an_engine_witness :
  let w := {| _engine := None; DB_URL := None;
              server := λ _, inr scenario |} in
  let e := RuntimeError
             "Missing DB_URL (or DATABASE_URL) environment variable." in
  (∀ term, search_term term w = (Raise e, w)) ∧
  (∀ term, term_count term w = (Raise e, w)) ∧
  (∀ term_a term_b, intersection_count term_a term_b w = (Raise e, w)) ∧
  (∀ term_a term_b,
     dissociate_terms term_a term_b w
     = (Return (jsonify (JDict [("error", JExc e)]), 500), w)) ∧
  (∀ coords1 coords2 c1 c2,
     unpack_coords coords1 = Return c1 →
     unpack_coords coords2 = Return c2 →
     dissociate_locations coords1 coords2 w
     = (Return (jsonify (JDict [("error", JExc e)]), 500), w)).
Proof.
  exact (without_an_engine
           {| _engine := None; DB_URL := None; server := λ _, inr scenario |}
           _ _ eq_refl).
Defined.

(** X7.  When the engine is there and the connection cannot be opened, every
    query route answers 500 with the driver's error; search_term sends its
    untouched initial result along: the term, [exists] false and no
    match. *)
Theorem store_cannot_be_reached
  (w w' : World) (eng : Engine) (msg : string) :
  get_engine w = (Return eng, w') →
  server w' (url eng) = inl msg →
  let e := DatabaseError msg in
  (∀ term,
     search_term term w
     = (Return (jsonify (JDict
          [("term", JStr term); ("exists", JBool false);
           ("matches", JList []); ("error", JExc e)]), 500), w')) ∧
  (∀ term,
     term_count term w
     = (Return (jsonify (JDict [("error", JExc e)]), 500), w')) ∧
  (∀ term_a term_b,
     intersection_count term_a term_b w
     = (Return (jsonify (JDict [("error", JExc e)]), 500), w')) ∧
  (∀ term_a term_b,
     dissociate_terms term_a term_b w
     = (Return (jsonify (JDict [("error", JExc e)]), 500), w')) ∧
  (∀ coords1 coords2 c1 c2,
     unpack_coords coords1 = Return c1 →
     unpack_coords coords2 = Return c2 →
     dissociate_locations coords1 coords2 w
     = (Return (jsonify (JDict [("error", JExc e)]), 500), w')).
Proof.
  intros Hget Hserver e. repeat apply conj; intros;
    try destruct c1 as [[??]?]; try destruct c2 as [[??]?];
    unfold_views; rewrite ?H, ?H0, Hget; cbn [url]; by rewrite Hserver.
Qed.

Lemma store_cannot_be_reached_witness :
  let w := {| _engine := None; DB_URL := Some "postgresql://down/db";
              server := λ _, inl "connection refused" |} in
  let e := DatabaseError "connection refused" in
  (∀ term,
     (search_term term w).1
     = Return (jsonify (JDict
         [("term", JStr term); ("exists", JBool false);
          ("matches", JList []); ("error", JExc e)]), 500)) ∧
  (∀ term,
     (term_count term w).1
     = Return (jsonify (JDict [("error", JExc e)]), 500)).
Proof.
  destruct (store_cannot_be_reached
              {| _engine := None; DB_URL := Some "postgresql://down/db";
                 server := λ _, inl "connection refused" |}
              _ _ "connection refused" eq_refl eq_refl)
    as (Hsearch & Hcount & _).
  split; intros term; [by rewrite Hsearch | by rewrite Hcount].
Defined.

Lemma serving_cases (w : World) :
  (∃ db, serving w = Some db) ∨
  (serving w = None ∧
   ((∃ e w', get_engine w = (Raise e, w')) ∨
    (∃ eng w' msg, get_engine w = (Return eng, w')
                   ∧ server w' (url eng) = inl msg))).
Proof.
  unfold serving. destruct (get_engine w) as [[eng|e] w'] eqn:Hget.
  - destruct (server w' (url eng)) as [msg|db] eqn:Hserver; [|eauto].
    right. split; [done|]. right. by exists eng, w', msg.
  - right. split; [done|]. left. eauto.
Qed.

Ltac not_served Hnot :=
  destruct Hnot as [(e & w' & Hget)|(eng & w' & msg & Hget & Hserver)];
  unfold_views; rewrite Hget; cbn [url]; rewrite ?Hserver; done.


(** X9.  dissociate_terms and dissociate_locations never raise: whatever the
    inputs and the state of the process, each answers, with status 200 or
    with status 500 and a body whose only key is [error]. *)
Theorem dissociate_routes_always_answer (w : World) :
  (∀ term_a term_b,
     (∃ body, (dissociate_terms term_a term_b w).1 = Return (body, 200)) ∨
     (∃ e, (dissociate_terms term_a term_b w).1
           = Return (jsonify (JDict [("error", JExc e)]), 500))) ∧
  (∀ coords1 coords2,
     (∃ body, (dissociate_locations coords1 coords2 w).1
              = Return (body, 200)) ∨
     (∃ e, (dissociate_locations coords1 coords2 w).1
           = Return (jsonify (JDict [("error", JExc e)]), 500))).
Proof.
  split; intros; unfold_views; repeat case_match; simplify_eq; simpl; eauto.
Qed.

(** ** How the counts of the term routes fit together *)

Lemma like_not_in_set db its_a its_b :
  list_to_set
    (remove_dups
       (filter (λ r, Sql.LIKE its_a r.2
                     ∧ r.1 ∉ Query.study_id_where_term_like db its_b)
          (annotations_terms db)).*1)
  = studies_of_terms db (Sql.LIKE its_a)
      ∖ studies_of_terms db (Sql.LIKE its_b).
Proof.
  apply set_eq. intros s. rewrite elem_of_list_to_set.
  apply elem_of_like_not_in.
Qed.

Lemma length_like_not_in db its_a its_b :
  length
    (remove_dups
       (filter (λ r, Sql.LIKE its_a r.2
                     ∧ r.1 ∉ Query.study_id_where_term_like db its_b)
          (annotations_terms db)).*1)
  = size (studies_of_terms db (Sql.LIKE its_a)
            ∖ studies_of_terms db (Sql.LIKE its_b)).
Proof.
  rewrite <- like_not_in_set. symmetry.
  apply size_list_to_set, NoDup_remove_dups.
Qed.





(** ** The two directions of dissociate_locations *)



(** ** What search_term finds and what term_count counts *)

(** Without a backslash in it, the pattern term_count sends matches no more
    than the pattern search_term sends for the same input: an underscore
    is a space for the one and any character for the other, and [ILIKE]
    is [LIKE] with case set aside. *)
Lemma like_replaced_ilike_tail (term : string) :
  free_of ["\"]%char term = true →
  ∃ its its',
    Sql.items (Py.replace "_" " " term +:+ "%") = Some its ∧
    Sql.items (term +:+ "%") = Some its' ∧
    ∀ s, Sql.LIKE its s = true → Sql.ILIKE its' s = true.
Proof.
  induction term as [|c term IH].
  - intros _. exists [Sql.AnyRun], [Sql.AnyRun]. repeat split.
    intros s _. apply matches_any_run.
  - intros [Hc Hterm]%free_of_cons.
    destruct (IH Hterm) as (its & its' & Hits & Hits' & Himp).
    change (Py.replace "_" " " (String c term))
      with (String (if Ascii.eqb c "_" then " "%char else c)
              (Py.replace "_" " " term)).
    rewrite !append_cons.
    assert (Ascii.eqb c "\" = false) as Hesc.
    { apply Ascii.eqb_neq. intros ->. apply Hc. by apply list_elem_of_singleton. }
    destruct (Ascii.eqb_spec c "_") as [->|Hund];
      [|destruct (Ascii.eqb_spec c "%") as [->|Hpct]].
    + exists (Sql.Exactly " " :: its), (Sql.AnyOne :: its').
      simpl. rewrite Hits, Hits'. repeat split.
      intros [|d s]; simpl; [done|].
      intros [_ ?]%andb_true_iff. by apply Himp.
    + exists (Sql.AnyRun :: its), (Sql.AnyRun :: its').
      simpl. rewrite Hits, Hits'. repeat split.
      intros s. unfold Sql.LIKE, Sql.ILIKE. rewrite !matches_run.
      intros (b & rest & -> & H). exists b, rest. split; [done|].
      by apply Himp.
    + exists (Sql.Exactly c :: its), (Sql.Exactly c :: its').
      simpl. rewrite Hesc, Hits, Hits'.
      rewrite (proj2 (Ascii.eqb_neq c "%") Hpct),
        (proj2 (Ascii.eqb_neq c "_") Hund). repeat split.
      intros [|d s]; simpl; [done|]. unfold Sql.same_exact, Sql.same_folded.
      intros [->%Ascii.eqb_eq ?]%andb_true_iff.
      apply andb_true_iff. split; [by apply Ascii.eqb_eq | by apply Himp].
Qed.

Lemma like_replaced_ilike (term : string) its its' :
  free_of ["\"]%char term = true →
  Sql.items (Query.like_param (Py.replace "_" " " term)) = Some its →
  Sql.items (Query.like_param term) = Some its' →
  ∀ s, Sql.LIKE its s = true → Sql.ILIKE its' s = true.
Proof.
  intros Hterm.
  destruct (like_replaced_ilike_tail term Hterm)
    as (tl & tl' & Htl & Htl' & Himp).
  unfold Query.like_param. rewrite !append_cons, !append_nil_l. simpl.
  rewrite Htl, Htl'. intros [= <-] [= <-] s.
  unfold Sql.LIKE, Sql.ILIKE. rewrite !matches_run.
  intros (b & rest & -> & H). exists b, rest. split; [done|]. by apply Himp.
Qed.



(** ** The literals the coordinate routes accept *)

Lemma isdecimal_not_space (c : ascii) :
  Py.isdecimal c = true → Py.isspace c = false.
Proof. by destruct c as [[] [] [] [] [] [] [] []]. Qed.

Lemma isdecimal_not_sign (c : ascii) :
  Py.isdecimal c = true → Ascii.eqb c "-" = false ∧ Ascii.eqb c "+" = false.
Proof. by destruct c as [[] [] [] [] [] [] [] []]. Qed.

Lemma rstrip_all_space (trail : string) :
  all_chars Py.isspace trail = true → Py.rstrip trail = "".
Proof.
  induction trail as [|c trail IH]; [done|]. simpl.
  intros [Hc Htrail]%andb_true_iff. by rewrite IH, Hc.
Qed.

Lemma rstrip_app_keep (x y : string) :
  Py.rstrip y ≠ "" → Py.rstrip (x +:+ y) = x +:+ Py.rstrip y.
Proof.
  intros Hy. induction x as [|c x IH]; [done|].
  rewrite !append_cons. simpl. rewrite IH.
  destruct (x +:+ Py.rstrip y) as [|d kept] eqn:Hkept; [|done].
  destruct x; [|done]. by rewrite append_nil_l in Hkept.
Qed.

Lemma rstrip_digits (ds trail : string) :
  ds ≠ "" → all_chars Py.isdecimal ds = true →
  all_chars Py.isspace trail = true → Py.rstrip (ds +:+ trail) = ds.
Proof.
  intros Hne Hds Htrail. induction ds as [|d ds IH]; [done|].
  simpl in Hds. apply andb_true_iff in Hds as [Hd Hds].
  rewrite append_cons. simpl. destruct ds as [|d' ds].
  - rewrite append_nil_l, (rstrip_all_space trail Htrail).
    by rewrite (isdecimal_not_space d Hd).
  - by rewrite IH.
Qed.

Lemma lstrip_app_space (lead body : string) :
  all_chars Py.isspace lead = true →
  Py.lstrip (lead +:+ body) = Py.lstrip body.
Proof.
  induction lead as [|c lead IH]; [done|]. rewrite append_cons. simpl.
  intros [Hc Hlead]%andb_true_iff. by rewrite Hc, IH.
Qed.

Lemma int_digits_all (ds : string) :
  all_chars Py.isdecimal ds = true →
  ∀ acc after, (after = false → ds ≠ "") →
    ∃ n, Py.int_digits acc after ds = Some n.
Proof.
  induction ds as [|d ds IH]; intros Hds acc after Hne; simpl.
  - destruct after; [eauto | by destruct Hne].
  - simpl in Hds. apply andb_true_iff in Hds as [-> Hds]. by apply IH.
Qed.

(** [int] accepts every base-10 integer literal. *)
Lemma int_accepts (s : string) :
  base10_integer s → ∃ n, Py.int s = Some n.
Proof.
  intros (lead & sign & ds & trail & -> & Hlead & Hsign & Hne & Hds & Htrail).
  assert (Py.rstrip (lead +:+ sign +:+ ds +:+ trail) = lead +:+ sign +:+ ds)
    as Hr.
  { assert (Py.rstrip (ds +:+ trail) = ds) as Hd by by apply rstrip_digits.
    assert (Py.rstrip (sign +:+ ds +:+ trail) = sign +:+ ds) as Hsd.
    { rewrite rstrip_app_keep; by rewrite Hd. }
    rewrite rstrip_app_keep; rewrite Hsd; [done|].
    destruct sign; [by rewrite append_nil_l | by rewrite append_cons]. }
  destruct (int_digits_all ds Hds 0 false (λ _, Hne)) as [n Hn].
  unfold Py.int, Py.strip. rewrite Hr, lstrip_app_space by done.
  destruct Hsign as [->|[->| ->]].
  - rewrite append_nil_l. destruct ds as [|d ds]; [done|].
    pose proof Hds as [Hd _]%andb_true_iff.
    destruct (isdecimal_not_sign d Hd) as [Hminus Hplus].
    simpl Py.lstrip. rewrite (isdecimal_not_space d Hd), Hminus, Hplus. eauto.
  - change (Py.lstrip ("+" +:+ ds)) with (String "+" ds).
    cbn [Ascii.eqb Bool.eqb]. eauto.
  - change (Py.lstrip ("-" +:+ ds)) with (String "-" ds).
    cbn [Ascii.eqb Bool.eqb]. rewrite Hn. by eexists.
Qed.




(** ** The limit of search_term *)

Lemma found_terms_length db term its :
  Sql.items (Query.like_param term) = Some its →
  length (remove_dups
            (filter (λ r, Sql.ILIKE its r.2) (annotations_terms db)).*2)
  = length (matching_terms db term).
Proof.
  intros Hits. unfold matching_terms. rewrite Hits.
  apply Permutation_length, NoDup_Permutation.
  - apply NoDup_remove_dups.
  - apply NoDup_filter, NoDup_remove_dups.
  - intros t. rewrite elem_of_matching_terms, list_elem_of_filter.
    rewrite Is_true_true. tauto.
Qed.



(** ** Pattern characters in a term input *)

Lemma items_percent (term : string) :
  all_chars (λ c, Ascii.eqb c "%") term = true →
  ∃ its, Sql.items (term +:+ "%") = Some its ∧
         ∀ same s, Sql.matches same its s = true.
Proof.
  induction term as [|c term IH].
  - intros _. exists [Sql.AnyRun]. split; [done|].
    intros. apply matches_any_run.
  - intros Hc. simpl in Hc.
    apply andb_true_iff in Hc as [->%Ascii.eqb_eq Hterm].
    destruct (IH Hterm) as (its & Hits & Hall).
    exists (Sql.AnyRun :: its). split.
    + rewrite append_cons. simpl. by rewrite Hits.
    + intros same s. by rewrite matches_run_unfold, Hall.
Qed.

Lemma replace_percent (term : string) :
  all_chars (λ c, Ascii.eqb c "%") term = true →
  Py.replace "_" " " term = term.
Proof.
  induction term as [|c term IH]; [done|]. simpl.
  intros [->%Ascii.eqb_eq Hterm]%andb_true_iff. by rewrite IH.
Qed.



Lemma items_escaped_end (q : string) :
  free_of wildcards q = true →
  Sql.items (q +:+ "\%") = Some (literal q ++ [Sql.Exactly "%"]).
Proof.
  induction q as [|c q IH]; [done|].
  rewrite free_of_cons. intros [Hc Hq]. rewrite append_cons. simpl.
  assert (Ascii.eqb c "\" = false ∧ Ascii.eqb c "%" = false
          ∧ Ascii.eqb c "_" = false) as (-> & -> & ->).
  { repeat split; apply Ascii.eqb_neq; intros ->; apply Hc;
      unfold wildcards; set_solver. }
  by rewrite IH.
Qed.

Lemma matches_literal_end (q : string) (c : ascii) (s : string) :
  Sql.matches Sql.same_exact (literal q ++ [Sql.Exactly c]) s = true ↔
  s = q +:+ String c "".
Proof.
  revert s. induction q as [|d q IH]; intros [|e s]; simpl;
    rewrite ?append_nil_l, ?append_cons; try (split; done).
  - rewrite andb_true_iff. unfold Sql.same_exact. rewrite Ascii.eqb_eq.
    destruct s.
    + split; [by intros [-> _] | by intros [= ->]].
    + split; [by intros [_ ?] | by intros [= _ ?]].
  - rewrite andb_true_iff, IH. unfold Sql.same_exact. rewrite Ascii.eqb_eq.
    split; [by intros [-> ->] | by intros [= -> ->]].
Qed.

Lemma replace_app (a b : string) :
  Py.replace "_" " " (a +:+ b)
  = Py.replace "_" " " a +:+ Py.replace "_" " " b.
Proof.
  induction a as [|c a IH]; [done|].
  rewrite append_cons. simpl. by rewrite IH, append_cons.
Qed.


